(** * Task Management API: the request handlers over the task table

    A shallow embedding of [main.py]: the mapped class [Task], the three
    request models, the six handlers and the framework layer that
    validates a request body before a handler runs.  The table is a
    finite map from primary key to row; every handler is a function from
    the table to a response and the table it leaves behind. *)

From stdpp Require Import gmap strings list fin_maps pretty.

Local Open Scope Z_scope.

(** ** The mapped class [Task] *)

(** [created_at] is a point in time; the handlers only copy it and render
    it with [isoformat], so it is kept as an opaque instant. *)
Definition datetime : Type := Z.

(** An instance of [Task].  Python does not enforce the annotations when
    an attribute is assigned (the table model runs no validation, neither
    in its constructor nor in [setattr]), so every attribute that a
    handler assigns may hold [None]. *)
Record Task : Type := mkTask {
  id : option Z;
  title : option string;
  description : option string;
  completed : option bool;
  priority : option string;
  created_at : datetime
}.

(** The table [task], keyed by its primary key. *)
Abbreviation table := (gmap Z Task).

(** [title: str], [completed: bool] and [priority: str] are not optional
    in the class, so their columns are NOT NULL; [description: str | None]
    is nullable.  The length bounds of [Field] only size the column type;
    the default engine (SQLite) does not check them. *)
Definition not_null (t : Task) : bool :=
  match title t, completed t, priority t with
  | Some _, Some _, Some _ => true
  | _, _, _ => false
  end.

(** ** Request models *)

(** [TaskCreate]: [title] required, the rest defaulted. *)
Record TaskCreate : Type := mkTaskCreate {
  create_title : string;
  create_description : option string;
  create_completed : bool;
  create_priority : string
}.

(** [TaskUpdate]: the same declarations as [TaskCreate]. *)
Record TaskUpdate : Type := mkTaskUpdate {
  update_title : string;
  update_description : option string;
  update_completed : bool;
  update_priority : string
}.

(** [TaskPatch]: every field [Optional[...] = None].  The outer option is
    membership in [model_fields_set]: [None] is a field the body did not
    mention, [Some None] one it set to null, [Some (Some v)] a value. *)
Record TaskPatch : Type := mkTaskPatch {
  patch_title : option (option string);
  patch_description : option (option string);
  patch_completed : option (option bool);
  patch_priority : option (option string)
}.

(** ** Request bodies and their validation *)

(** What a JSON body holds under one key of a request model: nothing,
    null, a value the framework coerces to the annotated type, or a value
    it cannot coerce.  Keys that the model does not declare are ignored.
    A string value is text that the storage layer can encode; a JSON
    string holding a lone surrogate is not a value of this model. *)
Inductive field (A : Type) : Type :=
| Omitted
| Null
| Value (a : A)
| Mistyped.
Arguments Omitted {A}.
Arguments Null {A}.
Arguments Value {A} a.
Arguments Mistyped {A}.

Record Body : Type := mkBody {
  body_title : field string;
  body_description : field string;
  body_completed : field bool;
  body_priority : field string
}.

(** The key holds a value of the wrong type. *)
Definition mistyped {A} (f : field A) : bool :=
  match f with
  | Mistyped => true
  | _ => false
  end.

(** The value a key supplies, if it supplies one. *)
Definition field_value {A} (f : field A) : option A :=
  match f with
  | Value a => Some a
  | _ => None
  end.

(** [name: T] — no default, null not allowed. *)
Definition required {A} (f : field A) : option A :=
  match f with
  | Value a => Some a
  | Omitted | Null | Mistyped => None
  end.

(** [name: T = d] — null not allowed. *)
Definition defaulted {A} (d : A) (f : field A) : option A :=
  match f with
  | Omitted => Some d
  | Value a => Some a
  | Null | Mistyped => None
  end.

(** [name: T | None = None]. *)
Definition nullable {A} (f : field A) : option (option A) :=
  match f with
  | Omitted | Null => Some None
  | Value a => Some (Some a)
  | Mistyped => None
  end.

(** [name: Optional[T] = None], remembering whether the key was given. *)
Definition nullable_set {A} (f : field A) : option (option (option A)) :=
  match f with
  | Omitted => Some None
  | Null => Some (Some None)
  | Value a => Some (Some (Some a))
  | Mistyped => None
  end.

(** Validation of a body against each model; [None] is a validation
    error, which the framework answers with 422 without calling the
    handler. *)
Definition validate_TaskCreate (b : Body) : option TaskCreate :=
  t ← required (body_title b);
  d ← nullable (body_description b);
  c ← defaulted false (body_completed b);
  p ← defaulted "medium"%string (body_priority b);
  Some (mkTaskCreate t d c p).

Definition validate_TaskUpdate (b : Body) : option TaskUpdate :=
  t ← required (body_title b);
  d ← nullable (body_description b);
  c ← defaulted false (body_completed b);
  p ← defaulted "medium"%string (body_priority b);
  Some (mkTaskUpdate t d c p).

Definition validate_TaskPatch (b : Body) : option TaskPatch :=
  t ← nullable_set (body_title b);
  d ← nullable_set (body_description b);
  c ← nullable_set (body_completed b);
  p ← nullable_set (body_priority b);
  Some (mkTaskPatch t d c p).

(** ** Responses *)

Inductive content : Type :=
| JTask (t : Task)                (* the six-key dict built from a task *)
| JTasks (ts : list Task)         (* a list of such dicts *)
| JMessage (message : string)     (* {"message": ...} *)
| JDetail (detail : string)       (* {"detail": ...} of an HTTPException *)
| JValidation                     (* the validation layer's error report *)
| JFault.                         (* an exception no handler caught *)

Record Response : Type := mkResponse {
  status_code : Z;
  json : content
}.

Definition HTTP_200_OK (c : content) : Response := mkResponse 200 c.
Definition HTTP_201_CREATED (c : content) : Response := mkResponse 201 c.
Definition HTTPException (status : Z) (detail : string) : Response :=
  mkResponse status (JDetail detail).
Definition unprocessable : Response := mkResponse 422 JValidation.
Definition server_fault : Response := mkResponse 500 JFault.

(** ** The session *)

(** The primary key is a signed 64-bit integer. *)
Definition int64 (z : Z) : bool :=
  (-9223372036854775808 <=? z) && (z <=? 9223372036854775807).

(** What [session.get] comes back with. *)
Inductive fetched : Type :=
| Row (task : Task)     (* the instance loaded from the row *)
| NoRow                 (* [None]: no row has this key *)
| OverflowError.        (* the engine cannot take the id as a parameter *)

(** [session.get(Task, task_id)].  The keys of stored rows are 64-bit, so
    an id outside that range names no row; the engine does not answer
    that there is none, it refuses the parameter and the call raises. *)
Definition session_get (task_id : Z) (s : table) : fetched :=
  match s !! task_id with
  | Some task => Row task
  | None => if int64 task_id then NoRow else OverflowError
  end.

(** The largest key in use, if any. *)
Definition max_rowid (s : table) : option Z :=
  map_fold (λ k _ acc, Some (from_option (Z.max k) k acc)) None s.

(** The key the engine gives a row inserted without one: 1 in an empty
    table, otherwise one more than the largest key in use. *)
Definition next_rowid (s : table) : Z := from_option Z.succ 1 (max_rowid s).

(** [session.add] of a new instance, [commit] and [refresh]: the row gets
    its key and is stored, unless it breaks a NOT NULL constraint, in
    which case the commit raises and nothing is stored. *)
Definition commit_insert (db_task : Task) (s : table) : option (Task * table) :=
  if not_null db_task then
    let k := next_rowid s in
    let row := mkTask (Some k) (title db_task) (description db_task)
                      (completed db_task) (priority db_task) (created_at db_task) in
    Some (row, <[k := row]> s)
  else None.

(** [session.add] of an instance loaded under [task_id], [commit] and
    [refresh]. *)
Definition commit_update (task_id : Z) (db_task : Task) (s : table)
  : option (Task * table) :=
  if not_null db_task then Some (db_task, <[task_id := db_task]> s) else None.

(** [session.delete] and [commit]. *)
Definition commit_delete (task_id : Z) (s : table) : table := delete task_id s.

(** ** Handlers *)

Definition root : Response :=
  HTTP_200_OK (JMessage "Welcome to Task Management API").

Definition create_task (now : datetime) (task : TaskCreate) (s : table)
  : Response * table :=
  let db_task := mkTask None (Some (create_title task)) (create_description task)
                        (Some (create_completed task)) (Some (create_priority task))
                        now in
  match commit_insert db_task s with
  | Some (db_task, s') => (HTTP_201_CREATED (JTask db_task), s')
  | None => (server_fault, s)
  end.

Definition get_all_tasks (s : table) : Response * table :=
  (HTTP_200_OK (JTasks (snd <$> map_to_list s)), s).

Definition get_task (task_id : Z) (s : table) : Response * table :=
  match session_get task_id s with
  | OverflowError => (server_fault, s)
  | NoRow => (HTTPException 404 "Task not found", s)
  | Row task => (HTTP_200_OK (JTask task), s)
  end.

Definition update_task (task_id : Z) (task : TaskUpdate) (s : table)
  : Response * table :=
  match session_get task_id s with
  | OverflowError => (server_fault, s)
  | NoRow => (HTTPException 404 "Task not found", s)
  | Row db_task =>
    let db_task := mkTask (id db_task) (Some (update_title task))
                          (update_description task) (Some (update_completed task))
                          (Some (update_priority task)) (created_at db_task) in
    match commit_update task_id db_task s with
    | Some (db_task, s') => (HTTP_200_OK (JTask db_task), s')
    | None => (server_fault, s)
    end
  end.

(** One entry of [task.model_dump(exclude_unset=True)]. *)
Inductive item : Type :=
| Title (value : option string)
| Description (value : option string)
| Completed (value : option bool)
| Priority (value : option string).

(** The dict holds the fields of [model_fields_set], in declaration
    order. *)
Definition model_dump_exclude_unset (task : TaskPatch) : list item :=
  from_option (λ v, [Title v]) [] (patch_title task) ++
  from_option (λ v, [Description v]) [] (patch_description task) ++
  from_option (λ v, [Completed v]) [] (patch_completed task) ++
  from_option (λ v, [Priority v]) [] (patch_priority task).

(** [setattr(db_task, key, value)]. *)
Definition setattr (db_task : Task) (i : item) : Task :=
  match i with
  | Title v =>
    mkTask (id db_task) v (description db_task) (completed db_task)
           (priority db_task) (created_at db_task)
  | Description v =>
    mkTask (id db_task) (title db_task) v (completed db_task)
           (priority db_task) (created_at db_task)
  | Completed v =>
    mkTask (id db_task) (title db_task) (description db_task) v
           (priority db_task) (created_at db_task)
  | Priority v =>
    mkTask (id db_task) (title db_task) (description db_task)
           (completed db_task) v (created_at db_task)
  end.

Definition patch_task (task_id : Z) (task : TaskPatch) (s : table)
  : Response * table :=
  match session_get task_id s with
  | OverflowError => (server_fault, s)
  | NoRow => (HTTPException 404 "Task not found", s)
  | Row db_task =>
    let task_data := model_dump_exclude_unset task in
    let db_task := foldl setattr db_task task_data in
    match commit_update task_id db_task s with
    | Some (db_task, s') => (HTTP_200_OK (JTask db_task), s')
    | None => (server_fault, s)
    end
  end.

Definition delete_task (task_id : Z) (s : table) : Response * table :=
  match session_get task_id s with
  | OverflowError => (server_fault, s)
  | NoRow => (HTTPException 404 "Task not found", s)
  | Row task =>
    (HTTP_200_OK (JMessage ("Task " +:+ pretty task_id +:+ " deleted successfully")),
     commit_delete task_id s)
  end.

(** ** The application *)

(** A request, after the framework parsed the path: [task_id] is the
    integer of the path segment, of any size.  A path segment that is not
    an integer is answered 422 before a handler is chosen and is not a
    request of this model. *)
Inductive Request : Type :=
| GET_root
| POST_tasks (now : datetime) (b : Body)
| GET_tasks
| GET_task (task_id : Z)
| PUT_task (task_id : Z) (b : Body)
| PATCH_task (task_id : Z) (b : Body)
| DELETE_task (task_id : Z).

(** The route table: the body is validated first, and the handler runs
    only on a valid one. *)
Definition app (r : Request) (s : table) : Response * table :=
  match r with
  | GET_root => (root, s)
  | POST_tasks now b =>
    match validate_TaskCreate b with
    | Some task => create_task now task s
    | None => (unprocessable, s)
    end
  | GET_tasks => get_all_tasks s
  | GET_task task_id => get_task task_id s
  | PUT_task task_id b =>
    match validate_TaskUpdate b with
    | Some task => update_task task_id task s
    | None => (unprocessable, s)
    end
  | PATCH_task task_id b =>
    match validate_TaskPatch b with
    | Some task => patch_task task_id task s
    | None => (unprocessable, s)
    end
  | DELETE_task task_id => delete_task task_id s
  end.

(** The tables the service can be in: the empty one it starts with, and
    whatever a request leaves behind. *)
Inductive reachable : table → Prop :=
| reachable_empty : reachable ∅
| reachable_app r s : reachable s → reachable (app r s).2.

(** ** Sample data (the fixture of the test suite) *)

Definition sample_task : Task :=
  mkTask (Some 1) (Some "Sample Task"%string) (Some "This is a sample task"%string)
         (Some false) (Some "medium"%string) 0.

Definition sample_table : table := {[ 1 := sample_task ]}.

Definition empty_body : Body := mkBody Omitted Omitted Omitted Omitted.

(** * Facts about the model *)

Example sample_table_is_posted :
  (app (POST_tasks 0 (mkBody (Value "Sample Task"%string)
                             (Value "This is a sample task"%string)
                             (Value false) (Value "medium"%string))) ∅).2
  = sample_table.
Proof. vm_compute. reflexivity. Qed.

Example delete_sample :
  (app (DELETE_task 1) sample_table).1
  = HTTP_200_OK (JMessage "Task 1 deleted successfully").
Proof. vm_compute. reflexivity. Qed.

(** ** Facts about validation *)

(** A PATCH body is valid exactly when no key holds a value of the wrong
    type: absent keys and nulls are both accepted. *)
Lemma validate_TaskPatch_is_Some (b : Body) :
  is_Some (validate_TaskPatch b) ↔
  mistyped (body_title b) = false ∧ mistyped (body_description b) = false ∧
  mistyped (body_completed b) = false ∧ mistyped (body_priority b) = false.
Proof.
  destruct b as [t d c p]. unfold validate_TaskPatch. simpl.
  destruct t, d, c, p; simpl; split;
    solve [ intros [? [=]] | intros (? & ? & ? & ?); discriminate
          | intros _; repeat split | intros _; eexists; reflexivity ].
Qed.

(** What a valid PUT body turns into. *)
Lemma validate_TaskUpdate_Some (b : Body) (task : TaskUpdate) :
  validate_TaskUpdate b = Some task →
  field_value (body_title b) = Some (update_title task) ∧
  field_value (body_description b) = update_description task ∧
  default false (field_value (body_completed b)) = update_completed task ∧
  default "medium"%string (field_value (body_priority b)) = update_priority task.
Proof.
  destruct b as [t d c p]. unfold validate_TaskUpdate. simpl.
  destruct t, d, c, p; simpl; intros [= <-]; repeat split.
Qed.

(** What a valid PATCH body turns into. *)
Lemma validate_TaskPatch_Some (b : Body) (task : TaskPatch) :
  validate_TaskPatch b = Some task →
  nullable_set (body_title b) = Some (patch_title task) ∧
  nullable_set (body_description b) = Some (patch_description task) ∧
  nullable_set (body_completed b) = Some (patch_completed task) ∧
  nullable_set (body_priority b) = Some (patch_priority task).
Proof.
  destruct b as [t d c p]. unfold validate_TaskPatch. simpl.
  destruct t, d, c, p; simpl; intros [= <-]; repeat split.
Qed.

(** ** Facts about the session *)

Lemma session_get_Some (s : table) (task_id : Z) (task : Task) :
  s !! task_id = Some task → session_get task_id s = Row task.
Proof. intros Hk. unfold session_get. by rewrite Hk. Qed.

Lemma session_get_None (s : table) (task_id : Z) :
  s !! task_id = None →
  session_get task_id s = if int64 task_id then NoRow else OverflowError.
Proof. intros Hk. unfold session_get. by rewrite Hk. Qed.

(** A row is loaded exactly when the table holds the key. *)
Lemma session_get_Row (s : table) (task_id : Z) (task : Task) :
  session_get task_id s = Row task ↔ s !! task_id = Some task.
Proof.
  unfold session_get. destruct (s !! task_id); [|destruct (int64 task_id)];
    split; congruence.
Qed.

Lemma max_rowid_bound (s : table) (k : Z) :
  is_Some (s !! k) → ∃ m, max_rowid s = Some m ∧ k ≤ m.
Proof.
  unfold max_rowid. revert k.
  apply (map_fold_weak_ind
           (λ r (m : table), ∀ k, is_Some (m !! k) → ∃ mx, r = Some mx ∧ k ≤ mx)).
  - intros k [x Hx]. by rewrite lookup_empty in Hx.
  - intros i x m r Hi IH k Hk. destruct (decide (i = k)) as [->|Hne].
    + eexists; split; [done|]. destruct r; simpl; lia.
    + rewrite lookup_insert_ne in Hk by done.
      destruct (IH k Hk) as (mx & -> & Hle).
      eexists; split; [done|]. simpl. lia.
Qed.

(** The key given to a new row is not in use. *)
Lemma next_rowid_fresh (s : table) : s !! next_rowid s = None.
Proof.
  destruct (s !! next_rowid s) as [t|] eqn:Hk; [|done].
  destruct (max_rowid_bound s (next_rowid s)) as (m & Hm & Hle); [by eexists|].
  unfold next_rowid in Hle. rewrite Hm in Hle. simpl in Hle. lia.
Qed.

(** The loop of [patch_task], attribute by attribute: an attribute takes
    the dumped value when the dict has its key and keeps its own
    otherwise; [id] and [created_at] are never assigned. *)
Lemma foldl_setattr (db_task : Task) (task : TaskPatch) :
  foldl setattr db_task (model_dump_exclude_unset task)
  = mkTask (id db_task)
           (default (title db_task) (patch_title task))
           (default (description db_task) (patch_description task))
           (default (completed db_task) (patch_completed task))
           (default (priority db_task) (patch_priority task))
           (created_at db_task).
Proof.
  destruct db_task, task as [[?|] [?|] [?|] [?|]]; reflexivity.
Qed.

(** The NOT NULL constraints hold of every row of every table the service
    can be in. *)
Lemma reachable_not_null (s : table) :
  reachable s → ∀ k t, s !! k = Some t → not_null t = true.
Proof.
  induction 1 as [|r s Hs IH]; intros k t Hk.
  - by rewrite lookup_empty in Hk.
  - destruct r as [|now b| |task_id|task_id b|task_id b|task_id]; simpl in Hk;
      try (by eapply IH).
    + destruct (validate_TaskCreate b) as [task|]; [|by eapply IH].
      unfold create_task, commit_insert in Hk. simpl in Hk.
      destruct (decide (next_rowid s = k)) as [<-|Hne].
      * rewrite lookup_insert_eq in Hk. by injection Hk as <-.
      * rewrite lookup_insert_ne in Hk by done. by eapply IH.
    + unfold get_task in Hk. destruct (session_get task_id s); by eapply IH.
    + destruct (validate_TaskUpdate b) as [task|]; [|by eapply IH].
      unfold update_task, commit_update in Hk.
      destruct (session_get task_id s) as [db_task| |]; [|by eapply IH..].
      simpl in Hk. destruct (decide (task_id = k)) as [<-|Hne].
      * rewrite lookup_insert_eq in Hk. by injection Hk as <-.
      * rewrite lookup_insert_ne in Hk by done. by eapply IH.
    + destruct (validate_TaskPatch b) as [task|]; [|by eapply IH].
      unfold patch_task, commit_update in Hk.
      destruct (session_get task_id s) as [db_task| |]; [|by eapply IH..].
      destruct (not_null (foldl setattr db_task (model_dump_exclude_unset task)))
        eqn:Hnn; [|by eapply IH].
      simpl in Hk. destruct (decide (task_id = k)) as [<-|Hne].
      * rewrite lookup_insert_eq in Hk. by injection Hk as <-.
      * rewrite lookup_insert_ne in Hk by done. by eapply IH.
    + unfold delete_task, commit_delete in Hk.
      destruct (session_get task_id s); [|by eapply IH..].
      simpl in Hk. apply lookup_delete_Some in Hk as [_ Hk]. by eapply IH.
Qed.

(** * Properties of the handlers *)

(** ** Creation *)

(** C8: a create request whose body holds only a title answers 201 with a
    record carrying that title, a null description, [completed = false]
    and [priority = "medium"], and that record is the row stored under the
    returned id. *)
Theorem create_title_only_defaults (now : datetime) (v : string) (s : table) :
  ∃ k t,
    app (POST_tasks now (mkBody (Value v) Omitted Omitted Omitted)) s
    = (HTTP_201_CREATED (JTask t), <[k := t]> s) ∧
    id t = Some k ∧ s !! k = None ∧
    title t = Some v ∧ description t = None ∧
    completed t = Some false ∧ priority t = Some "medium"%string ∧
    created_at t = now.
Proof.
  exists (next_rowid s). eexists. split; [reflexivity|].
  simpl. repeat split. apply next_rowid_fresh.
Qed.

(** ** Full update *)

(** A valid PUT body on an existing task: the handler assigns the four
    attributes from the request model and the commit goes through. *)
Lemma put_applied (s : table) (task_id : Z) (db_task : Task) (b : Body) :
  s !! task_id = Some db_task →
  is_Some (validate_TaskUpdate b) →
  ∃ t',
    app (PUT_task task_id b) s = (HTTP_200_OK (JTask t'), <[task_id := t']> s) ∧
    title t' = field_value (body_title b) ∧
    description t' = field_value (body_description b) ∧
    completed t' = Some (default false (field_value (body_completed b))) ∧
    priority t' = Some (default "medium"%string (field_value (body_priority b))).
Proof.
  intros Hk [task Hv]. simpl. rewrite Hv.
  unfold update_task, session_get. rewrite Hk.
  apply validate_TaskUpdate_Some in Hv as (Ht & Hd & Hc & Hp).
  eexists. split; [reflexivity|]. simpl.
  rewrite Ht, Hd, Hc, Hp. repeat split.
Qed.

(** C5: on an existing task a valid PUT answers 200 and stores exactly the
    supplied values in all four mutable fields, whatever they held
    before; an omitted description is stored as null. *)
Theorem put_replaces_all_fields
    (s : table) (task_id : Z) (db_task : Task) (b : Body) :
  s !! task_id = Some db_task →
  is_Some (validate_TaskUpdate b) →
  ∃ t',
    app (PUT_task task_id b) s = (HTTP_200_OK (JTask t'), <[task_id := t']> s) ∧
    title t' = field_value (body_title b) ∧
    is_Some (title t') ∧
    description t' = field_value (body_description b) ∧
    completed t' = Some (default false (field_value (body_completed b))) ∧
    priority t' = Some (default "medium"%string (field_value (body_priority b))) ∧
    (body_description b = Omitted → description t' = None).
Proof.
  intros Hk Hv.
  destruct (put_applied s task_id db_task b Hk Hv) as (t' & Happ & Ht & Hd & Hc & Hp).
  exists t'. repeat split; try done.
  - rewrite Ht. destruct Hv as [task Hv].
    apply validate_TaskUpdate_Some in Hv as (-> & _). by eexists.
  - intros Hom. rewrite Hd, Hom. reflexivity.
Qed.

Lemma put_replaces_all_fields_witness :
  ∃ t',
    app (PUT_task 1 (mkBody (Value "Minimal Update"%string) Omitted
                            (Value false) (Value "low"%string))) sample_table
    = (HTTP_200_OK (JTask t'), <[1 := t']> sample_table) ∧
    title t' = Some "Minimal Update"%string ∧
    is_Some (title t') ∧
    description t' = None ∧
    completed t' = Some false ∧
    priority t' = Some "low"%string ∧
    (@Omitted string = Omitted → description t' = None).
Proof.
  apply (put_replaces_all_fields sample_table 1 sample_task
           (mkBody (Value "Minimal Update"%string) Omitted
                   (Value false) (Value "low"%string))).
  - reflexivity.
  - eexists. reflexivity.
Defined.

(** ** Absent ids *)

(** X19: on an id that is in no row and within the signed 64-bit range
    of the primary key, get-one, full update, partial update and delete
    each answer 404 with the detail "Task not found" and leave the table
    as it was. *)
Theorem absent_id_in_range_404 (s : table) (task_id : Z) :
  s !! task_id = None →
  int64 task_id = true →
  get_task task_id s = (mkResponse 404 (JDetail "Task not found"), s) ∧
  (∀ task, update_task task_id task s
           = (mkResponse 404 (JDetail "Task not found"), s)) ∧
  (∀ task, patch_task task_id task s
           = (mkResponse 404 (JDetail "Task not found"), s)) ∧
  delete_task task_id s = (mkResponse 404 (JDetail "Task not found"), s).
Proof.
  intros Hk Hr.
  unfold get_task, update_task, patch_task, delete_task.
  rewrite (session_get_None _ _ Hk), Hr. repeat split.
Qed.

Lemma absent_id_in_range_404_witness :
  get_task 999 sample_table = (mkResponse 404 (JDetail "Task not found"), sample_table) ∧
  (∀ task, update_task 999 task sample_table
           = (mkResponse 404 (JDetail "Task not found"), sample_table)) ∧
  (∀ task, patch_task 999 task sample_table
           = (mkResponse 404 (JDetail "Task not found"), sample_table)) ∧
  delete_task 999 sample_table
  = (mkResponse 404 (JDetail "Task not found"), sample_table).
Proof. apply (absent_id_in_range_404 sample_table 999); reflexivity. Defined.

(** C6: the failing input.  The id 9223372036854775808 is in no row of
    the sample table, yet get-one, full update, partial update and delete
    on it are answered with a server fault, not with 404 "Task not
    found"; the table is left as it was. *)
Theorem absent_id_out_of_range_faults :
  sample_table !! 9223372036854775808 = None ∧
  app (GET_task 9223372036854775808) sample_table
  = (mkResponse 500 JFault, sample_table) ∧
  app (PUT_task 9223372036854775808
         (mkBody (Value "Test"%string) Null (Value false) (Value "medium"%string)))
      sample_table
  = (mkResponse 500 JFault, sample_table) ∧
  app (PATCH_task 9223372036854775808
         (mkBody (Value "Test"%string) Omitted Omitted Omitted)) sample_table
  = (mkResponse 500 JFault, sample_table) ∧
  app (DELETE_task 9223372036854775808) sample_table
  = (mkResponse 500 JFault, sample_table).
Proof. repeat split; vm_compute; reflexivity. Qed.

(** ** Frame of the updates *)

(** C7: when a PUT or a PATCH on an existing task answers 200, the record
    it returns and stores has the id and the creation time the task had,
    and every other row of the table is as it was. *)
Theorem update_keeps_id_created_at
    (s s' : table) (task_id : Z) (db_task : Task) (b : Body) (r : Response) :
  s !! task_id = Some db_task →
  app (PUT_task task_id b) s = (r, s') ∨ app (PATCH_task task_id b) s = (r, s') →
  status_code r = 200 →
  ∃ t',
    json r = JTask t' ∧ s' !! task_id = Some t' ∧
    id t' = id db_task ∧ created_at t' = created_at db_task ∧
    ∀ j, j ≠ task_id → s' !! j = s !! j.
Proof.
  intros Hk [Happ|Happ] Hst; simpl in Happ.
  - destruct (validate_TaskUpdate b) as [task|];
      [|injection Happ as <- <-; discriminate].
    unfold update_task, session_get in Happ. rewrite Hk in Happ. simpl in Happ.
    injection Happ as <- <-. eexists. split; [reflexivity|].
    rewrite lookup_insert_eq. repeat split.
    intros j Hj. by rewrite lookup_insert_ne.
  - destruct (validate_TaskPatch b) as [task|];
      [|injection Happ as <- <-; discriminate].
    unfold patch_task, session_get, commit_update in Happ. rewrite Hk in Happ.
    rewrite foldl_setattr in Happ.
    match type of Happ with context [if ?c then _ else _] => destruct c end;
      injection Happ as <- <-; [|discriminate].
    eexists. split; [reflexivity|].
    rewrite lookup_insert_eq. repeat split.
    intros j Hj. by rewrite lookup_insert_ne.
Qed.

Lemma update_keeps_id_created_at_witness :
  ∃ t',
    JTask (mkTask (Some 1) (Some "Sample Task"%string)
                  (Some "This is a sample task"%string)
                  (Some true) (Some "medium"%string) 0) = JTask t' ∧
    (<[1 := mkTask (Some 1) (Some "Sample Task"%string)
                   (Some "This is a sample task"%string)
                   (Some true) (Some "medium"%string) 0]> sample_table : table) !! 1
    = Some t' ∧
    id t' = Some 1 ∧ created_at t' = 0 ∧
    ∀ j, j ≠ 1 →
      (<[1 := mkTask (Some 1) (Some "Sample Task"%string)
                     (Some "This is a sample task"%string)
                     (Some true) (Some "medium"%string) 0]> sample_table : table) !! j
      = sample_table !! j.
Proof.
  apply (update_keeps_id_created_at sample_table _ 1 sample_task
           (mkBody Omitted Omitted (Value true) Omitted)
           (HTTP_200_OK (JTask (mkTask (Some 1) (Some "Sample Task"%string)
                                       (Some "This is a sample task"%string)
                                       (Some true) (Some "medium"%string) 0)))).
  - reflexivity.
  - right. reflexivity.
  - reflexivity.
Defined.

(** ** Deletion *)

(** C9: deleting an existing task (its id a 64-bit key, as the id of
    every stored row is) answers 200 with the message
    "Task {id} deleted successfully" for that id and removes the row, so
    that a get-one on the id then answers 404. *)
Theorem delete_then_get_404 (s : table) (task_id : Z) (task : Task) :
  s !! task_id = Some task →
  int64 task_id = true →
  ∃ s',
    app (DELETE_task task_id) s
    = (mkResponse 200
         (JMessage ("Task " +:+ pretty task_id +:+ " deleted successfully")), s') ∧
    s' !! task_id = None ∧
    (∀ j, j ≠ task_id → s' !! j = s !! j) ∧
    app (GET_task task_id) s' = (mkResponse 404 (JDetail "Task not found"), s').
Proof.
  intros Hk Hr. exists (delete task_id s). simpl.
  unfold delete_task, get_task, commit_delete.
  rewrite (session_get_Some _ _ _ Hk).
  rewrite (session_get_None (delete task_id s) task_id (lookup_delete_eq _ _)), Hr.
  rewrite lookup_delete_eq. repeat split.
  intros j Hj. by rewrite lookup_delete_ne.
Qed.

Lemma delete_then_get_404_witness :
  ∃ s',
    app (DELETE_task 1) sample_table
    = (mkResponse 200 (JMessage "Task 1 deleted successfully"), s') ∧
    s' !! 1 = None ∧
    (∀ j, j ≠ 1 → s' !! j = sample_table !! j) ∧
    app (GET_task 1) s' = (mkResponse 404 (JDetail "Task not found"), s').
Proof.
  apply (delete_then_get_404 sample_table 1 sample_task); reflexivity.
Defined.

(** ** Partial update *)

(** C1, as stated, fails: a PATCH that sets [title] to null names the
    field explicitly, yet the stored title is not overwritten (the commit
    is refused and the row stays as it was). *)
Lemma patch_null_title_not_overwritten :
  ¬ (∀ (s : table) (task_id : Z) (db_task : Task) (b : Body) (task : TaskPatch),
       s !! task_id = Some db_task →
       validate_TaskPatch b = Some task →
       ∃ t',
         (app (PATCH_task task_id b) s).2 !! task_id = Some t' ∧
         title t' = default (title db_task) (patch_title task) ∧
         description t' = default (description db_task) (patch_description task) ∧
         completed t' = default (completed db_task) (patch_completed task) ∧
         priority t' = default (priority db_task) (patch_priority task)).
Proof.
  intros H.
  destruct (H sample_table 1 sample_task (mkBody Null Omitted Omitted Omitted)
              (mkTaskPatch (Some None) None None None) eq_refl eq_refl)
    as (t' & Hl & Ht & _).
  vm_compute in Hl. injection Hl as <-. discriminate Ht.
Qed.

(** C1, amended: whatever a valid PATCH body holds, the fields it omits
    keep their stored value; and when it sets none of [title],
    [completed], [priority] to null, the request answers 200 and the
    stored record has the supplied value in every field the body names
    (null and false included) and the previous value in every other. *)
Theorem patch_overwrites_present_fields
    (s : table) (task_id : Z) (db_task : Task) (b : Body) (task : TaskPatch) :
  s !! task_id = Some db_task →
  validate_TaskPatch b = Some task →
  (∃ t',
     (app (PATCH_task task_id b) s).2 !! task_id = Some t' ∧
     (patch_title task = None → title t' = title db_task) ∧
     (patch_description task = None → description t' = description db_task) ∧
     (patch_completed task = None → completed t' = completed db_task) ∧
     (patch_priority task = None → priority t' = priority db_task)) ∧
  (not_null db_task = true →
   patch_title task ≠ Some None →
   patch_completed task ≠ Some None →
   patch_priority task ≠ Some None →
   ∃ t',
     app (PATCH_task task_id b) s = (HTTP_200_OK (JTask t'), <[task_id := t']> s) ∧
     title t' = default (title db_task) (patch_title task) ∧
     description t' = default (description db_task) (patch_description task) ∧
     completed t' = default (completed db_task) (patch_completed task) ∧
     priority t' = default (priority db_task) (patch_priority task)).
Proof.
  intros Hk Hv. simpl. rewrite Hv.
  unfold patch_task, session_get, commit_update. rewrite Hk, foldl_setattr.
  split.
  - match goal with |- context [if ?c then _ else _] => destruct c end; simpl.
    + eexists. rewrite lookup_insert_eq. split; [reflexivity|]. simpl.
      repeat split; intros ->; reflexivity.
    + exists db_task. split; [done|]. repeat split.
  - intros Hnn Ht Hc Hp.
    assert (not_null
              (mkTask (id db_task)
                      (default (title db_task) (patch_title task))
                      (default (description db_task) (patch_description task))
                      (default (completed db_task) (patch_completed task))
                      (default (priority db_task) (patch_priority task))
                      (created_at db_task)) = true) as ->.
    { unfold not_null in *. simpl.
      destruct (title db_task), (completed db_task), (priority db_task);
        try discriminate.
      destruct (patch_title task) as [[?|]|], (patch_completed task) as [[?|]|],
               (patch_priority task) as [[?|]|]; simpl; congruence. }
    eexists. split; [reflexivity|]. repeat split.
Qed.

Lemma patch_overwrites_present_fields_witness :
  (∃ t',
     (app (PATCH_task 1 (mkBody Omitted Null (Value true) Omitted)) sample_table).2 !! 1
     = Some t' ∧
     (Some (Some true) = @None (option bool) → completed t' = Some false) ∧
     title t' = Some "Sample Task"%string ∧
     priority t' = Some "medium"%string) ∧
  (∃ t',
     app (PATCH_task 1 (mkBody Omitted Null (Value true) Omitted)) sample_table
     = (HTTP_200_OK (JTask t'), <[1 := t']> sample_table) ∧
     title t' = Some "Sample Task"%string ∧
     description t' = None ∧
     completed t' = Some true ∧
     priority t' = Some "medium"%string).
Proof.
  destruct (patch_overwrites_present_fields sample_table 1 sample_task
              (mkBody Omitted Null (Value true) Omitted)
              (mkTaskPatch None (Some None) (Some (Some true)) None)
              eq_refl eq_refl) as [(t' & Hl & Ht & _ & Hc & Hp) Hok].
  split.
  - exists t'. split; [exact Hl|]. split; [exact Hc|].
    split; [exact (Ht eq_refl) | exact (Hp eq_refl)].
  - apply Hok; [reflexivity | discriminate | discriminate | discriminate].
Defined.

(** C10, as stated, fails: a PATCH that sets [completed] to null on the
    sample task does not answer 200, and null is not what the row then
    holds. *)
Lemma patch_null_completed_not_stored :
  ¬ (∀ (s : table) (task_id : Z) (db_task : Task) (b : Body),
       s !! task_id = Some db_task →
       is_Some (validate_TaskPatch b) →
       (body_completed b = Null →
        status_code (app (PATCH_task task_id b) s).1 = 200 ∧
        completed <$> (app (PATCH_task task_id b) s).2 !! task_id = Some None) ∧
       (body_priority b = Null →
        status_code (app (PATCH_task task_id b) s).1 = 200 ∧
        priority <$> (app (PATCH_task task_id b) s).2 !! task_id = Some None)).
Proof.
  intros H.
  destruct (H sample_table 1 sample_task (mkBody Omitted Omitted Null Omitted)
              eq_refl (ex_intro _ _ eq_refl)) as [Hc _].
  destruct (Hc eq_refl) as [Hst _]. vm_compute in Hst. discriminate Hst.
Qed.

(** C10, amended: a PATCH whose body sets [completed] or [priority] to
    null does not store the null.  On a stored task (non-null in its NOT
    NULL columns) the row is left as it was, so that neither its
    completed nor its priority is null, and so is the rest of the
    table. *)
Theorem patch_null_required_column_not_stored
    (s : table) (task_id : Z) (db_task : Task) (b : Body) :
  s !! task_id = Some db_task →
  not_null db_task = true →
  body_completed b = Null ∨ body_priority b = Null →
  (app (PATCH_task task_id b) s).2 = s ∧
  (app (PATCH_task task_id b) s).2 !! task_id = Some db_task ∧
  completed <$> (app (PATCH_task task_id b) s).2 !! task_id ≠ Some None ∧
  priority <$> (app (PATCH_task task_id b) s).2 !! task_id ≠ Some None.
Proof.
  intros Hk Hnn Hnull.
  assert ((app (PATCH_task task_id b) s).2 = s) as ->.
  { simpl. destruct (validate_TaskPatch b) as [task|] eqn:Hv; [|reflexivity].
    pose proof (validate_TaskPatch_Some b task Hv) as (_ & _ & Hvc & Hvp).
    unfold patch_task, commit_update.
    rewrite (session_get_Some _ _ _ Hk), foldl_setattr.
    assert (not_null
              (mkTask (id db_task)
                      (default (title db_task) (patch_title task))
                      (default (description db_task) (patch_description task))
                      (default (completed db_task) (patch_completed task))
                      (default (priority db_task) (patch_priority task))
                      (created_at db_task)) = false) as ->; [|reflexivity].
    unfold not_null. simpl.
    destruct Hnull as [E|E]; rewrite E in *; simpl in *;
      [injection Hvc as <- | injection Hvp as <-]; simpl;
      repeat match goal with |- context [match ?x with _ => _ end] => destruct x end;
      reflexivity. }
  split; [reflexivity|]. split; [exact Hk|]. rewrite Hk. simpl.
  unfold not_null in Hnn.
  destruct (title db_task), (completed db_task), (priority db_task);
    try discriminate.
  split; discriminate.
Qed.

Lemma patch_null_required_column_not_stored_witness :
  (app (PATCH_task 1 (mkBody Omitted Omitted Null Omitted)) sample_table).2
  = sample_table ∧
  (app (PATCH_task 1 (mkBody Omitted Omitted Null Omitted)) sample_table).2 !! 1
  = Some sample_task ∧
  completed <$> (app (PATCH_task 1 (mkBody Omitted Omitted Null Omitted))
                     sample_table).2 !! 1 ≠ Some None ∧
  priority <$> (app (PATCH_task 1 (mkBody Omitted Omitted Null Omitted))
                    sample_table).2 !! 1 ≠ Some None.
Proof.
  apply (patch_null_required_column_not_stored sample_table 1 sample_task
           (mkBody Omitted Omitted Null Omitted));
    [reflexivity | reflexivity | left; reflexivity].
Defined.

(** ** Validation of a create request *)

(** A create request without a title (or with a null or ill-typed one) is
    answered with 422 and nothing is stored. *)
Lemma create_without_title_rejected (now : datetime) (b : Body) (s : table) :
  field_value (body_title b) = None →
  app (POST_tasks now b) s = (mkResponse 422 JValidation, s).
Proof.
  intros Ht. simpl. unfold validate_TaskCreate.
  destruct (body_title b); simpl in *; try discriminate; reflexivity.
Qed.

(** [TaskCreate] carries no length bound and the table model checks none:
    any title text and any description text, of any length, is stored. *)
Lemma create_accepts_any_text
    (now : datetime) (v : string) (d : option string) (s : table) :
  let b := mkBody (Value v) (from_option Value Null d) Omitted Omitted in
  let row := mkTask (Some (next_rowid s)) (Some v) d (Some false)
                    (Some "medium"%string) now in
  app (POST_tasks now b) s
  = (HTTP_201_CREATED (JTask row), <[next_rowid s := row]> s).
Proof. destruct d; reflexivity. Qed.

(** C2: the failing input.  A create request whose title is the empty
    string is answered 201, not 422, and the row with the empty title is
    stored. *)
Theorem create_empty_title_accepted :
  let row := mkTask (Some 1) (Some ""%string) None (Some false)
                    (Some "medium"%string) 0 in
  app (POST_tasks 0 (mkBody (Value ""%string) Omitted Omitted Omitted)) ∅
  = (mkResponse 201 (JTask row), {[ 1 := row ]}) ∧
  status_code (app (POST_tasks 0 (mkBody (Value ""%string) Omitted Omitted Omitted)) ∅).1
  ≠ 422.
Proof. split; [vm_compute; reflexivity | vm_compute; discriminate]. Qed.

(** ** Validation of a full update *)

(** C3, as stated, fails: a PUT body that holds only a title is applied
    to the sample task and answered 200. *)
Lemma put_without_completed_priority_applied :
  ¬ (∀ (s : table) (task_id : Z) (b : Body),
       body_completed b = Omitted ∨ body_priority b = Omitted →
       status_code (app (PUT_task task_id b) s).1 = 422 ∧
       (app (PUT_task task_id b) s).2 = s).
Proof.
  intros H.
  destruct (H sample_table 1
              (mkBody (Value "Minimal Update"%string) Omitted Omitted Omitted)
              (or_introl eq_refl)) as [Hst _].
  vm_compute in Hst. discriminate Hst.
Qed.

(** C3, amended: of the fields of a PUT body only [title] is required.  A
    body without a title is answered 422 and not applied; a body with a
    title may omit [completed] and [priority] as it may omit
    [description], and on an existing task it is then applied with
    [completed = false] and [priority = "medium"]. *)
Theorem put_requires_only_title (s : table) (task_id : Z) (b : Body) :
  (body_title b = Omitted →
   app (PUT_task task_id b) s = (mkResponse 422 JValidation, s)) ∧
  (∀ db_task v,
     s !! task_id = Some db_task →
     body_title b = Value v →
     mistyped (body_description b) = false →
     body_completed b = Omitted ∨ is_Some (field_value (body_completed b)) →
     body_priority b = Omitted ∨ is_Some (field_value (body_priority b)) →
     ∃ t',
       app (PUT_task task_id b) s = (HTTP_200_OK (JTask t'), <[task_id := t']> s) ∧
       title t' = Some v ∧
       (body_completed b = Omitted → completed t' = Some false) ∧
       (body_priority b = Omitted → priority t' = Some "medium"%string)).
Proof.
  split.
  - intros Ht. simpl. unfold validate_TaskUpdate. rewrite Ht. reflexivity.
  - intros db_task v Hk Ht Hd Hc Hp.
    destruct (put_applied s task_id db_task b Hk)
      as (t' & Happ & Htt & _ & Hcc & Hpp).
    { destruct b as [bt bd bc bp]; simpl in *. subst bt.
      unfold validate_TaskUpdate; simpl.
      destruct bd; try discriminate;
        destruct Hc as [-> | [? Hc]], Hp as [-> | [? Hp]]; simpl;
        try (destruct bc; try discriminate); try (destruct bp; try discriminate);
        simpl; by eexists. }
    exists t'. split; [exact Happ|]. rewrite Htt, Ht. split; [reflexivity|].
    split; [intros E; rewrite Hcc, E | intros E; rewrite Hpp, E]; reflexivity.
Qed.

Lemma put_requires_only_title_witness :
  app (PUT_task 1 empty_body) sample_table = (mkResponse 422 JValidation, sample_table) ∧
  ∃ t',
    app (PUT_task 1 (mkBody (Value "Minimal Update"%string) Omitted Omitted Omitted))
        sample_table
    = (HTTP_200_OK (JTask t'), <[1 := t']> sample_table) ∧
    title t' = Some "Minimal Update"%string ∧
    completed t' = Some false ∧
    priority t' = Some "medium"%string.
Proof.
  split.
  - apply (put_requires_only_title sample_table 1 empty_body). reflexivity.
  - destruct (proj2 (put_requires_only_title sample_table 1
                       (mkBody (Value "Minimal Update"%string) Omitted Omitted Omitted))
                    sample_task "Minimal Update"%string eq_refl eq_refl eq_refl
                    (or_introl eq_refl) (or_introl eq_refl))
      as (t' & Happ & Ht & Hc & Hp).
    exists t'. split; [exact Happ|]. split; [exact Ht|].
    split; [exact (Hc eq_refl) | exact (Hp eq_refl)].
Defined.

(** ** The title of a stored task *)

(** Deleting a task puts no empty title into the table. *)
Lemma delete_keeps_titles (s : table) (task_id : Z) :
  (∀ k t, s !! k = Some t → title t ≠ Some ""%string) →
  ∀ k t, (app (DELETE_task task_id) s).2 !! k = Some t → title t ≠ Some ""%string.
Proof.
  intros Hs k t. simpl. unfold delete_task, commit_delete.
  destruct (session_get task_id s); simpl; [|by apply Hs..].
  intros Hk. apply lookup_delete_Some in Hk as [_ Hk]. by eapply Hs.
Qed.

(** C4: the failing inputs.  A create request with an empty title takes
    the empty table to one that stores an empty title; a PUT and a PATCH
    with an empty title each store it in the sample task, whose title was
    not empty. *)
Theorem empty_title_reachable :
  (∃ (s : table) k t, reachable s ∧ s !! k = Some t ∧ title t = Some ""%string) ∧
  (reachable sample_table ∧
   (∀ k t, sample_table !! k = Some t → title t ≠ Some ""%string) ∧
   title <$> (app (PUT_task 1 (mkBody (Value ""%string) Omitted Omitted Omitted))
                  sample_table).2 !! 1 = Some (Some ""%string) ∧
   title <$> (app (PATCH_task 1 (mkBody (Value ""%string) Omitted Omitted Omitted))
                  sample_table).2 !! 1 = Some (Some ""%string)).
Proof.
  split.
  - exists (app (POST_tasks 0 (mkBody (Value ""%string) Omitted Omitted Omitted)) ∅).2,
           1, (mkTask (Some 1) (Some ""%string) None (Some false)
                      (Some "medium"%string) 0).
    split; [apply reachable_app, reachable_empty|].
    split; vm_compute; reflexivity.
  - split; [rewrite <- sample_table_is_posted; apply reachable_app, reachable_empty|].
    split; [|split; vm_compute; reflexivity].
    intros k t Hk. unfold sample_table in Hk.
    apply lookup_singleton_Some in Hk as [_ <-]. discriminate.
Qed.

(** * Further properties of the handlers *)

(** ** What each route does on a valid request *)

Lemma post_valid (now : datetime) (b : Body) (task : TaskCreate) (s : table) :
  validate_TaskCreate b = Some task →
  app (POST_tasks now b) s
  = (HTTP_201_CREATED
       (JTask (mkTask (Some (next_rowid s)) (Some (create_title task))
                      (create_description task) (Some (create_completed task))
                      (Some (create_priority task)) now)),
     <[next_rowid s :=
         mkTask (Some (next_rowid s)) (Some (create_title task))
                (create_description task) (Some (create_completed task))
                (Some (create_priority task)) now]> s).
Proof. intros Hv. simpl. rewrite Hv. reflexivity. Qed.

Lemma put_existing
    (s : table) (task_id : Z) (db_task : Task) (b : Body) (task : TaskUpdate) :
  s !! task_id = Some db_task →
  validate_TaskUpdate b = Some task →
  app (PUT_task task_id b) s
  = (HTTP_200_OK
       (JTask (mkTask (id db_task) (Some (update_title task))
                      (update_description task) (Some (update_completed task))
                      (Some (update_priority task)) (created_at db_task))),
     <[task_id :=
         mkTask (id db_task) (Some (update_title task))
                (update_description task) (Some (update_completed task))
                (Some (update_priority task)) (created_at db_task)]> s).
Proof.
  intros Hk Hv. simpl. rewrite Hv. unfold update_task.
  rewrite (session_get_Some _ _ _ Hk). reflexivity.
Qed.

Lemma patch_existing
    (s : table) (task_id : Z) (db_task : Task) (b : Body) (task : TaskPatch) :
  s !! task_id = Some db_task →
  validate_TaskPatch b = Some task →
  app (PATCH_task task_id b) s
  = if not_null (foldl setattr db_task (model_dump_exclude_unset task))
    then (HTTP_200_OK (JTask (foldl setattr db_task (model_dump_exclude_unset task))),
          <[task_id := foldl setattr db_task (model_dump_exclude_unset task)]> s)
    else (server_fault, s).
Proof.
  intros Hk Hv. simpl. rewrite Hv. unfold patch_task, commit_update.
  rewrite (session_get_Some _ _ _ Hk). by destruct (not_null _).
Qed.

Lemma update_absent (s : table) (task_id : Z) (b : Body) :
  s !! task_id = None →
  (app (PUT_task task_id b) s).2 = s ∧ (app (PATCH_task task_id b) s).2 = s.
Proof.
  intros Hk. simpl. unfold update_task, patch_task.
  rewrite (session_get_None _ _ Hk).
  split; [destruct (validate_TaskUpdate b) | destruct (validate_TaskPatch b)];
    by destruct (int64 task_id).
Qed.

(** Patching a patched instance with the same model changes nothing more. *)
Lemma foldl_setattr_twice (db_task : Task) (task : TaskPatch) :
  foldl setattr (foldl setattr db_task (model_dump_exclude_unset task))
        (model_dump_exclude_unset task)
  = foldl setattr db_task (model_dump_exclude_unset task).
Proof.
  rewrite !foldl_setattr. simpl.
  destruct task as [[?|] [?|] [?|] [?|]]; reflexivity.
Qed.

(** ** Creation *)

(** X1: a task just created can be fetched: get-one on the id that the
    create response carries answers 200 with the very record the create
    returned. *)
Theorem create_then_get (now : datetime) (b : Body) (s : table) :
  is_Some (validate_TaskCreate b) →
  ∃ k t s',
    app (POST_tasks now b) s = (HTTP_201_CREATED (JTask t), s') ∧
    id t = Some k ∧
    app (GET_task k) s' = (HTTP_200_OK (JTask t), s').
Proof.
  intros [task Hv]. rewrite (post_valid _ _ _ _ Hv).
  eexists (next_rowid s), _, _. split; [reflexivity|]. split; [reflexivity|].
  simpl. unfold get_task. by rewrite (session_get_Some _ _ _ (lookup_insert_eq _ _ _)).
Qed.

Lemma create_then_get_witness :
  ∃ k t s',
    app (POST_tasks 7 (mkBody (Value "Minimal task"%string) Omitted Omitted Omitted))
        sample_table
    = (HTTP_201_CREATED (JTask t), s') ∧
    id t = Some k ∧
    app (GET_task k) s' = (HTTP_200_OK (JTask t), s').
Proof.
  apply (create_then_get 7 (mkBody (Value "Minimal task"%string) Omitted Omitted Omitted)
           sample_table).
  eexists. reflexivity.
Defined.

(** X2: a valid create adds exactly one row: the table grows by one and
    every row that was there is still there, unchanged. *)
Theorem create_adds_one_row (now : datetime) (b : Body) (s : table) :
  is_Some (validate_TaskCreate b) →
  size (app (POST_tasks now b) s).2 = S (size s) ∧
  ∀ j t, s !! j = Some t → (app (POST_tasks now b) s).2 !! j = Some t.
Proof.
  intros [task Hv]. rewrite (post_valid _ _ _ _ Hv). simpl. split.
  - apply map_size_insert_None, next_rowid_fresh.
  - intros j t Hj. rewrite lookup_insert_ne; [done|].
    intros <-. by rewrite next_rowid_fresh in Hj.
Qed.

Lemma create_adds_one_row_witness :
  size (app (POST_tasks 7 (mkBody (Value "Minimal task"%string) Omitted Omitted Omitted))
            sample_table).2 = S (size sample_table) ∧
  ∀ j t, sample_table !! j = Some t →
         (app (POST_tasks 7 (mkBody (Value "Minimal task"%string) Omitted Omitted Omitted))
              sample_table).2 !! j = Some t.
Proof.
  apply (create_adds_one_row 7
           (mkBody (Value "Minimal task"%string) Omitted Omitted Omitted) sample_table).
  eexists. reflexivity.
Defined.

(** X3: a create request is answered 422 exactly when its title is
    missing, null or ill-typed, its description is ill-typed, or its
    completed or priority is null or ill-typed. *)
Theorem create_rejected_iff (now : datetime) (b : Body) (s : table) :
  status_code (app (POST_tasks now b) s).1 = 422 ↔
  field_value (body_title b) = None ∨
  mistyped (body_description b) = true ∨
  (body_completed b = Null ∨ mistyped (body_completed b) = true) ∨
  (body_priority b = Null ∨ mistyped (body_priority b) = true).
Proof.
  destruct b as [bt bd bc bp]. simpl. unfold validate_TaskCreate. simpl.
  destruct bt, bd, bc, bp; simpl; split;
    first [ intros _; tauto | idtac ];
    try (intros [? | [? | [[?|?] | [?|?]]]]; discriminate);
    try discriminate.
Qed.

(** ** Outcomes *)

(** X5: a request that is not answered 200 or 201 has no effect: after a
    404, a 422 or a server fault the table is exactly as it was. *)
Theorem failure_leaves_table (r : Request) (s : table) :
  status_code (app r s).1 ≠ 200 →
  status_code (app r s).1 ≠ 201 →
  (app r s).2 = s.
Proof.
  intros H200 H201.
  destruct r as [|now b| |task_id|task_id b|task_id b|task_id]; simpl in *;
    try reflexivity.
  - destruct (validate_TaskCreate b); [|reflexivity]. by destruct H201.
  - unfold get_task. by destruct (session_get task_id s).
  - destruct (validate_TaskUpdate b); [|reflexivity].
    unfold update_task in *. destruct (session_get task_id s); [|reflexivity..].
    by destruct H200.
  - destruct (validate_TaskPatch b); [|reflexivity].
    unfold patch_task, commit_update in *.
    destruct (session_get task_id s); [|reflexivity..].
    destruct (not_null _); [|reflexivity]. by destruct H200.
  - unfold delete_task in *. destruct (session_get task_id s); [|reflexivity..].
    by destruct H200.
Qed.

Lemma failure_leaves_table_witness :
  (app (PATCH_task 1 (mkBody Null Omitted Omitted Omitted)) sample_table).2
  = sample_table.
Proof.
  apply (failure_leaves_table (PATCH_task 1 (mkBody Null Omitted Omitted Omitted))
           sample_table); vm_compute; discriminate.
Defined.

(** ** Listing *)

(** X6: the listing answers 200, leaves the table as it is, and holds
    exactly the stored rows, one entry per row; on an empty table it is
    the empty list. *)
Theorem get_all_tasks_lists_rows (s : table) :
  ∃ l,
    app GET_tasks s = (HTTP_200_OK (JTasks l), s) ∧
    length l = size s ∧
    (∀ t, t ∈ l ↔ ∃ k, s !! k = Some t) ∧
    (s = ∅ → l = []).
Proof.
  exists (snd <$> map_to_list s). split; [reflexivity|].
  split; [by rewrite length_fmap, length_map_to_list|]. split.
  - intros t. rewrite list_elem_of_fmap. split.
    + intros ([k t'] & -> & Hin). exists k. by apply elem_of_map_to_list.
    + intros [k Hk]. exists (k, t). split; [done|]. by apply elem_of_map_to_list.
  - intros ->. by rewrite map_to_list_empty.
Qed.

(** ** Updates *)

(** X7: a full update is idempotent: sending the same PUT again gives the
    same response and the same table as sending it once. *)
Theorem put_idempotent (s : table) (task_id : Z) (b : Body) :
  app (PUT_task task_id b) (app (PUT_task task_id b) s).2
  = app (PUT_task task_id b) s.
Proof.
  destruct (validate_TaskUpdate b) as [task|] eqn:Hv;
    [|simpl; rewrite Hv; simpl; rewrite ?Hv; reflexivity].
  destruct (s !! task_id) as [db_task|] eqn:Hk.
  - rewrite (put_existing _ _ _ _ _ Hk Hv). simpl snd.
    erewrite put_existing; [|apply lookup_insert_eq|exact Hv].
    simpl. by rewrite insert_insert_eq.
  - by rewrite (proj1 (update_absent s task_id b Hk)).
Qed.

(** X8: a partial update is idempotent: sending the same PATCH again
    gives the same response and the same table as sending it once. *)
Theorem patch_idempotent (s : table) (task_id : Z) (b : Body) :
  app (PATCH_task task_id b) (app (PATCH_task task_id b) s).2
  = app (PATCH_task task_id b) s.
Proof.
  destruct (validate_TaskPatch b) as [task|] eqn:Hv;
    [|simpl; rewrite Hv; simpl; rewrite ?Hv; reflexivity].
  destruct (s !! task_id) as [db_task|] eqn:Hk.
  - rewrite (patch_existing _ _ _ _ _ Hk Hv).
    destruct (not_null (foldl setattr db_task (model_dump_exclude_unset task)))
      eqn:Hnn; simpl snd.
    + erewrite patch_existing; [|apply lookup_insert_eq|exact Hv].
      rewrite foldl_setattr_twice, Hnn. by rewrite insert_insert_eq.
    + by rewrite (patch_existing _ _ _ _ _ Hk Hv), Hnn.
  - by rewrite (proj2 (update_absent s task_id b Hk)).
Qed.

(** X9: a valid full update does not depend on what a partial update did
    before it: a valid PUT after any PATCH of the same task gives the
    response and the table that the PUT alone gives. *)
Theorem put_after_patch (s : table) (task_id : Z) (b b' : Body) :
  is_Some (validate_TaskUpdate b) →
  app (PUT_task task_id b) (app (PATCH_task task_id b') s).2
  = app (PUT_task task_id b) s.
Proof.
  intros [task Hv].
  destruct (validate_TaskPatch b') as [task'|] eqn:Hv';
    [|simpl; rewrite ?Hv'; reflexivity].
  destruct (s !! task_id) as [db_task|] eqn:Hk.
  - rewrite (patch_existing _ _ _ _ _ Hk Hv').
    destruct (not_null _); simpl snd; [|reflexivity].
    erewrite put_existing; [|apply lookup_insert_eq|exact Hv].
    rewrite (put_existing _ _ _ _ _ Hk Hv), foldl_setattr. simpl.
    by rewrite insert_insert_eq.
  - by rewrite (proj2 (update_absent s task_id b' Hk)).
Qed.

Lemma put_after_patch_witness :
  app (PUT_task 1 (mkBody (Value "Updated Task"%string) Omitted (Value true)
                          (Value "high"%string)))
      (app (PATCH_task 1 (mkBody (Value "Patched Title"%string) Null Omitted Omitted))
           sample_table).2
  = app (PUT_task 1 (mkBody (Value "Updated Task"%string) Omitted (Value true)
                            (Value "high"%string))) sample_table.
Proof.
  apply (put_after_patch sample_table 1
           (mkBody (Value "Updated Task"%string) Omitted (Value true)
                   (Value "high"%string))
           (mkBody (Value "Patched Title"%string) Null Omitted Omitted)).
  eexists. reflexivity.
Defined.

(** After a PUT or a PATCH the table has the ids it had. *)
Lemma updates_keep_ids_aux (s : table) (task_id : Z) (b : Body) :
  dom (app (PUT_task task_id b) s).2 = dom s ∧
  dom (app (PATCH_task task_id b) s).2 = dom s.
Proof.
  destruct (s !! task_id) as [db_task|] eqn:Hk.
  - split.
    + destruct (validate_TaskUpdate b) as [task|] eqn:Hv;
        [|simpl; rewrite ?Hv; reflexivity].
      rewrite (put_existing _ _ _ _ _ Hk Hv). simpl.
      by apply dom_insert_lookup_L.
    + destruct (validate_TaskPatch b) as [task|] eqn:Hv;
        [|simpl; rewrite ?Hv; reflexivity].
      rewrite (patch_existing _ _ _ _ _ Hk Hv).
      destruct (not_null _); simpl; [|done]. by apply dom_insert_lookup_L.
  - destruct (update_absent s task_id b Hk) as [-> ->]. done.
Qed.

(** X10: updates neither create nor remove rows: after a PUT or a PATCH,
    whatever its outcome, the table has the ids it had and as many rows
    as it had. *)
Theorem updates_keep_ids (s : table) (task_id : Z) (b : Body) :
  (dom (app (PUT_task task_id b) s).2 = dom s ∧
   size (app (PUT_task task_id b) s).2 = size s) ∧
  (dom (app (PATCH_task task_id b) s).2 = dom s ∧
   size (app (PATCH_task task_id b) s).2 = size s).
Proof.
  destruct (updates_keep_ids_aux s task_id b) as [Hput Hpatch].
  split; (split; [done|]); rewrite <- !size_dom; congruence.
Qed.

(** X11: an update can be read back: when a PUT or a PATCH answers 200,
    a get-one on the same id right after it gives the same response. *)
Theorem update_then_get
    (s s' : table) (task_id : Z) (b : Body) (r : Response) :
  app (PUT_task task_id b) s = (r, s') ∨ app (PATCH_task task_id b) s = (r, s') →
  status_code r = 200 →
  app (GET_task task_id) s' = (r, s').
Proof.
  intros [Happ|Happ] Hst; simpl in Happ.
  - destruct (validate_TaskUpdate b) as [task|];
      [|injection Happ as <- <-; discriminate].
    unfold update_task in Happ.
    destruct (session_get task_id s); simpl in Happ;
      injection Happ as <- <-; [|discriminate..].
    simpl. unfold get_task.
    by rewrite (session_get_Some _ _ _ (lookup_insert_eq _ _ _)).
  - destruct (validate_TaskPatch b) as [task|];
      [|injection Happ as <- <-; discriminate].
    unfold patch_task, commit_update in Happ.
    destruct (session_get task_id s); [|injection Happ as <- <-; discriminate..].
    destruct (not_null _); injection Happ as <- <-; [|discriminate].
    simpl. unfold get_task.
    by rewrite (session_get_Some _ _ _ (lookup_insert_eq _ _ _)).
Qed.

Lemma update_then_get_witness :
  app (GET_task 1)
      (<[1 := mkTask (Some 1) (Some "Sample Task"%string)
                     (Some "This is a sample task"%string)
                     (Some false) (Some "high"%string) 0]> sample_table)
  = (HTTP_200_OK (JTask (mkTask (Some 1) (Some "Sample Task"%string)
                                (Some "This is a sample task"%string)
                                (Some false) (Some "high"%string) 0)),
     <[1 := mkTask (Some 1) (Some "Sample Task"%string)
                   (Some "This is a sample task"%string)
                   (Some false) (Some "high"%string) 0]> sample_table).
Proof.
  apply (update_then_get sample_table _ 1
           (mkBody Omitted Omitted Omitted (Value "high"%string))).
  - right. reflexivity.
  - reflexivity.
Defined.

(** X12: a PATCH with an empty body changes nothing: on an existing task
    it answers 200 with the stored record and the table is as it was. *)
Theorem patch_empty_body_noop (s : table) (task_id : Z) (db_task : Task) :
  s !! task_id = Some db_task →
  not_null db_task = true →
  app (PATCH_task task_id (mkBody Omitted Omitted Omitted Omitted)) s
  = (HTTP_200_OK (JTask db_task), s).
Proof.
  intros Hk Hnn. erewrite patch_existing; [|exact Hk|reflexivity].
  rewrite foldl_setattr. destruct db_task. simpl in *. rewrite Hnn.
  by rewrite insert_id.
Qed.

Lemma patch_empty_body_noop_witness :
  app (PATCH_task 1 (mkBody Omitted Omitted Omitted Omitted)) sample_table
  = (HTTP_200_OK (JTask sample_task), sample_table).
Proof.
  apply (patch_empty_body_noop sample_table 1 sample_task); reflexivity.
Defined.

(** X13: a PATCH that gives all four fields, none of the required ones
    null, does what a PUT with the same body does: same response, same
    table, whether or not the task exists. *)
Theorem full_patch_is_put
    (s : table) (task_id : Z) (v : string) (d : field string) (c : bool) (p : string) :
  d ≠ Omitted →
  mistyped d = false →
  app (PATCH_task task_id (mkBody (Value v) d (Value c) (Value p))) s
  = app (PUT_task task_id (mkBody (Value v) d (Value c) (Value p))) s.
Proof.
  intros Hd Hm. simpl. unfold patch_task, update_task, commit_update.
  destruct d; try done; simpl; destruct (session_get task_id s); reflexivity.
Qed.

Lemma full_patch_is_put_witness :
  app (PATCH_task 1 (mkBody (Value "Updated Task"%string) Null (Value true)
                            (Value "high"%string))) sample_table
  = app (PUT_task 1 (mkBody (Value "Updated Task"%string) Null (Value true)
                            (Value "high"%string))) sample_table.
Proof.
  apply (full_patch_is_put sample_table 1 "Updated Task"%string Null true
           "high"%string); [discriminate | reflexivity].
Defined.

(** X15: partial updates of different fields can be sent in either order:
    when no field is named by both, the table after the two PATCHes is
    the same whichever comes first. *)
Theorem patches_of_distinct_fields_commute
    (s : table) (task_id : Z) (task1 task2 : TaskPatch) :
  (∀ db_task, s !! task_id = Some db_task → not_null db_task = true) →
  patch_title task1 = None ∨ patch_title task2 = None →
  patch_description task1 = None ∨ patch_description task2 = None →
  patch_completed task1 = None ∨ patch_completed task2 = None →
  patch_priority task1 = None ∨ patch_priority task2 = None →
  (patch_task task_id task2 (patch_task task_id task1 s).2).2
  = (patch_task task_id task1 (patch_task task_id task2 s).2).2.
Proof.
  intros Hnn Ht Hd Hc Hp. unfold patch_task, session_get, commit_update.
  destruct (s !! task_id) as [db_task|] eqn:Hk;
    [|destruct (int64 task_id); simpl; rewrite Hk; reflexivity].
  specialize (Hnn db_task eq_refl). rewrite !foldl_setattr.
  destruct db_task as [i [t|] de [c|] [p|] cr]; try discriminate.
  destruct task1 as [t1 d1 c1 p1], task2 as [t2 d2 c2 p2]. simpl in *.
  destruct Ht as [-> | ->], Hd as [-> | ->], Hc as [-> | ->], Hp as [-> | ->];
    repeat match goal with
           | x : option (option _) |- _ => destruct x as [[?|]|]
           end;
    simpl; rewrite ?lookup_insert_eq, ?Hk, ?foldl_setattr; simpl;
    rewrite ?lookup_insert_eq, ?Hk, ?foldl_setattr; simpl;
    rewrite ?insert_insert_eq; reflexivity.
Qed.

Lemma patches_of_distinct_fields_commute_witness :
  (patch_task 1 (mkTaskPatch None None (Some (Some true)) None)
              (patch_task 1 (mkTaskPatch (Some (Some "Patched Title"%string))
                                         None None None) sample_table).2).2
  = (patch_task 1 (mkTaskPatch (Some (Some "Patched Title"%string)) None None None)
                (patch_task 1 (mkTaskPatch None None (Some (Some true)) None)
                            sample_table).2).2.
Proof.
  apply (patches_of_distinct_fields_commute sample_table 1
           (mkTaskPatch (Some (Some "Patched Title"%string)) None None None)
           (mkTaskPatch None None (Some (Some true)) None));
    [ | right; reflexivity | left; reflexivity | left; reflexivity | left; reflexivity].
  intros db_task Hk. vm_compute in Hk. injection Hk as <-. reflexivity.
Defined.

(** ** Deletion *)

(** X16: deleting an existing task removes exactly one row: the table
    shrinks by one and its ids are the former ones without the deleted
    id. *)
Theorem delete_removes_one_row (s : table) (task_id : Z) (task : Task) :
  s !! task_id = Some task →
  S (size (app (DELETE_task task_id) s).2) = size s ∧
  dom (app (DELETE_task task_id) s).2 = dom s ∖ {[ task_id ]}.
Proof.
  intros Hk. simpl. unfold delete_task, session_get, commit_delete.
  rewrite Hk. simpl. split; [|apply dom_delete_L].
  rewrite <- (insert_delete_id s task_id task Hk) at 2.
  symmetry. apply map_size_insert_None, lookup_delete_eq.
Qed.

Lemma delete_removes_one_row_witness :
  S (size (app (DELETE_task 1) sample_table).2) = size sample_table ∧
  dom (app (DELETE_task 1) sample_table).2 = dom sample_table ∖ {[ 1 ]}.
Proof. apply (delete_removes_one_row sample_table 1 sample_task). reflexivity. Defined.

(** ** Rows of a reachable table *)

(** The largest key in use is a key in use. *)
Lemma max_rowid_is_key (s : table) (m : Z) :
  max_rowid s = Some m → is_Some (s !! m).
Proof.
  unfold max_rowid. revert m.
  apply (map_fold_weak_ind
           (λ r (t : table), ∀ m, r = Some m → is_Some (t !! m))).
  - intros m [=].
  - intros i x t r Hi IH m [= <-]. destruct r as [m0|]; simpl.
    + destruct (Z.max_spec i m0) as [[_ ->] | [_ ->]].
      * destruct (decide (i = m0)) as [->|Hne];
          [rewrite lookup_insert_eq; by eexists|].
        rewrite lookup_insert_ne by done. by apply IH.
      * rewrite lookup_insert_eq. by eexists.
    + rewrite lookup_insert_eq. by eexists.
Qed.

(** X17: in every table the service can be in, each row is stored under
    the id it carries, ids are at least 1, and no row has a null title,
    completed or priority. *)
Theorem reachable_rows_keyed (s : table) :
  reachable s →
  ∀ k t, s !! k = Some t → id t = Some k ∧ 1 ≤ k ∧ not_null t = true.
Proof.
  intros Hs k t Hk. split; [|split; [|by eapply reachable_not_null]];
    revert k t Hk.
  - induction Hs as [|r s Hs IH]; intros k t Hk;
      [by rewrite lookup_empty in Hk|].
    destruct r as [|now b| |task_id|task_id b|task_id b|task_id]; simpl in Hk;
      try (by eapply IH).
    + destruct (validate_TaskCreate b) as [task|]; [|by eapply IH].
      unfold create_task, commit_insert in Hk. simpl in Hk.
      destruct (decide (next_rowid s = k)) as [<-|Hne].
      * rewrite lookup_insert_eq in Hk. by injection Hk as <-.
      * rewrite lookup_insert_ne in Hk by done. by eapply IH.
    + unfold get_task in Hk. destruct (session_get task_id s); by eapply IH.
    + destruct (validate_TaskUpdate b) as [task|]; [|by eapply IH].
      unfold update_task, commit_update, session_get in Hk.
      destruct (s !! task_id) as [db_task|] eqn:Hd;
        [|destruct (int64 task_id); by eapply IH].
      simpl in Hk. destruct (decide (task_id = k)) as [<-|Hne].
      * rewrite lookup_insert_eq in Hk. injection Hk as <-. simpl. by eapply IH.
      * rewrite lookup_insert_ne in Hk by done. by eapply IH.
    + destruct (validate_TaskPatch b) as [task|]; [|by eapply IH].
      unfold patch_task, commit_update, session_get in Hk.
      destruct (s !! task_id) as [db_task|] eqn:Hd;
        [|destruct (int64 task_id); by eapply IH].
      rewrite foldl_setattr in Hk.
      destruct (not_null _); [|by eapply IH].
      simpl in Hk. destruct (decide (task_id = k)) as [<-|Hne].
      * rewrite lookup_insert_eq in Hk. injection Hk as <-. simpl. by eapply IH.
      * rewrite lookup_insert_ne in Hk by done. by eapply IH.
    + unfold delete_task, commit_delete in Hk.
      destruct (session_get task_id s); [|by eapply IH..].
      simpl in Hk. apply lookup_delete_Some in Hk as [_ Hk]. by eapply IH.
  - induction Hs as [|r s Hs IH]; intros k t Hk;
      [by rewrite lookup_empty in Hk|].
    assert (∀ j, is_Some ((app r s).2 !! j) → is_Some (s !! j) ∨ j = next_rowid s)
      as Hdom.
    { intros j Hj.
      destruct r as [|now b| |task_id|task_id b|task_id b|task_id]; simpl in Hj;
        try (by left).
      - destruct (validate_TaskCreate b) as [task|]; [|by left].
        unfold create_task, commit_insert in Hj. simpl in Hj.
        destruct (decide (next_rowid s = j)) as [<-|Hne]; [by right|].
        rewrite lookup_insert_ne in Hj by done. by left.
      - unfold get_task in Hj. destruct (session_get task_id s); by left.
      - left. rewrite <- elem_of_dom in *.
        by rewrite <- (proj1 (updates_keep_ids_aux s task_id b)).
      - left. rewrite <- elem_of_dom in *.
        by rewrite <- (proj2 (updates_keep_ids_aux s task_id b)).
      - unfold delete_task, commit_delete in Hj.
        destruct (session_get task_id s); [|by left..]. simpl in Hj.
        destruct Hj as [x Hx]. apply lookup_delete_Some in Hx as [_ Hx].
        left. by eexists. }
    destruct (Hdom k) as [[t' Ht'] | ->]; [by eexists | by eapply IH |].
    unfold next_rowid. destruct (max_rowid s) as [m|] eqn:Hm; simpl; [|lia].
    destruct (max_rowid_is_key s m Hm) as [t' Ht'].
    specialize (IH m t' Ht'). lia.
Qed.

Lemma reachable_rows_keyed_witness :
  id sample_task = Some 1 ∧ 1 ≤ 1 ∧ not_null sample_task = true.
Proof.
  apply (reachable_rows_keyed sample_table).
  - rewrite <- sample_table_is_posted. apply reachable_app, reachable_empty.
  - reflexivity.
Defined.

(** ** The delete message *)

Lemma append_length (s1 s2 : string) :
  String.length (s1 +:+ s2) = (String.length s1 + String.length s2)%nat.
Proof. induction s1 as [|a s1 IH]; simpl; [reflexivity | by rewrite IH]. Qed.

Lemma append_inj_r (s1 s2 t : string) : s1 +:+ t = s2 +:+ t → s1 = s2.
Proof.
  revert s2. induction s1 as [|a s1 IH]; intros [|b s2] H; simpl in H.
  - reflexivity.
  - apply (f_equal String.length) in H. simpl in H.
    rewrite !append_length in H. simpl in H. lia.
  - apply (f_equal String.length) in H. simpl in H.
    rewrite !append_length in H. simpl in H. lia.
  - injection H as -> H. f_equal. by apply IH.
Qed.

(** X18: the delete message identifies the task: two successful deletes
    answer the same message only when they deleted the same id. *)
Theorem delete_message_names_id
    (s s' : table) (task_id task_id' : Z) (task task' : Task) :
  s !! task_id = Some task →
  s' !! task_id' = Some task' →
  json (app (DELETE_task task_id) s).1 = json (app (DELETE_task task_id') s').1 →
  task_id = task_id'.
Proof.
  intros Hk Hk'. simpl. unfold delete_task, session_get. rewrite Hk, Hk'. simpl.
  intros [= H].
  change (pretty task_id +:+ " deleted successfully"
          = pretty task_id' +:+ " deleted successfully") in H.
  apply append_inj_r in H. by apply pretty_Z_inj in H.
Qed.

Lemma delete_message_names_id_witness : (1 : Z) = 1.
Proof.
  apply (delete_message_names_id sample_table sample_table 1 1 sample_task sample_task);
    reflexivity.
Defined.
